(** * The Xomware API response envelope (api-response.py)

    A shallow embedding of [workflows/api-response-envelope/types/api-response.py]:
    the dataclass [ApiResponseDC] with its [to_dict] projection, the helper
    factories [api_ok] and [api_error], and the pydantic form [ApiResponse]
    with its class methods [ok] and [fail].

    Python dictionaries with string keys are finite maps ([gmap string _]):
    equality of two Python dicts does not depend on insertion order, and
    neither does equality of two [gmap]s. *)

From stdpp Require Import gmap strings list fin_maps.
From Stdlib Require Import ZArith.

Set Warnings "-register-all".
Local Open Scope string_scope.
Local Open Scope list_scope.

(** ** Python values

    [data: Any] holds an arbitrary Python object.  The payload is opaque to
    the envelope: the only thing the code ever asks of it is [is not None].
    The values below are the JSON-like ones, and [PyObject] stands for any
    other object (a float, an instance of a class of the caller), known by
    its address; [PyNone] is the absent sentinel.  A payload dictionary
    keeps its insertion order. *)
Inductive pyval : Type :=
  | PyNone
  | PyBool (b : bool)
  | PyInt (z : Z)
  | PyStr (s : string)
  | PyList (items : list pyval)
  | PyDict (items : list (string * pyval))
  | PyObject (ref : nat).

(** [v is not None].  [None] is a singleton, so the identity test is a test
    on the value. *)
Definition is_not_None (v : pyval) : bool :=
  match v with
  | PyNone => false
  | _ => true
  end.

(** [Optional[str]] as a Python value: [None] or the string. *)
Definition of_optional_str (o : option string) : pyval :=
  match o with
  | None => PyNone
  | Some s => PyStr s
  end.

(** An argument of a call: passed, or left out so that the declared default
    applies. *)
Inductive arg (A : Type) : Type :=
  | Omitted
  | Given (a : A).
Arguments Omitted {A}.
Arguments Given {A} a.

Definition arg_or {A : Type} (dflt : A) (x : arg A) : A :=
  match x with
  | Omitted => dflt
  | Given a => a
  end.

(** ** The pydantic form

    [class ApiResponse(BaseModel, Generic[T])] with [success: bool],
    [data: Optional[T] = None] and [error: Optional[str] = None].  The
    fields are typed as declared, so the values the model validation would
    refuse are not inputs of the embedding; on well-typed arguments
    construction stores them, a field left out taking its default. *)
Module ApiResponse.

Record t : Type := mk {
  success : bool;
  data : pyval;
  error : option string
}.

(** [cls(success=..., data=..., error=...)]. *)
Definition new (success : bool) (data : arg pyval) (error : arg (option string)) : t :=
  mk success (arg_or PyNone data) (arg_or None error).

(** [ok(cls, data)]: [cls(success=True, data=data)]. *)
Definition ok (data : pyval) : t := new true (Given data) Omitted.

(** [fail(cls, error)]: [cls(success=False, error=error)]. *)
Definition fail (error : string) : t := new false Omitted (Given (Some error)).

(** [is_success]: [self.success is True]. *)
Definition is_success (self : t) : bool := bool_decide (success self = true).

(** [is_error]: [self.success is False]. *)
Definition is_error (self : t) : bool := bool_decide (success self = false).

End ApiResponse.

(** ** The dataclass form *)

(** [field(default=None)] of [data] and of [error]. *)
Definition data_default : pyval := PyNone.
Definition error_default : option string := None.

(** [@dataclass class ApiResponseDC]: [success: bool], [data: Any],
    [error: Optional[str]]. *)
Record ApiResponseDC : Type := mkApiResponseDC {
  success : bool;
  data : pyval;
  error : option string
}.

(** The [__init__] that [@dataclass] generates,
    [__init__(self, success, data=None, error=None)]: it stores its three
    arguments and does nothing else (the class is not frozen and has no
    [__post_init__]). *)
Definition ApiResponseDC_init
    (success : bool) (data : arg pyval) (error : arg (option string)) : ApiResponseDC :=
  mkApiResponseDC success (arg_or data_default data) (arg_or error_default error).

(** [ApiResponseDC.to_dict]:
<<
    result: dict = {"success": self.success}
    if self.data is not None:
        result["data"] = self.data
    if self.error is not None:
        result["error"] = self.error
    return result
>> *)
Definition to_dict (self : ApiResponseDC) : gmap string pyval :=
  let result : gmap string pyval := {[ "success" := PyBool (success self) ]} in
  let result :=
    if is_not_None (data self) then <[ "data" := data self ]> result
    else result in
  let result :=
    if is_not_None (of_optional_str (error self))
    then <[ "error" := of_optional_str (error self) ]> result
    else result in
  result.

(** [api_ok(data)]: [ApiResponseDC(success=True, data=data)]. *)
Definition api_ok (data : pyval) : ApiResponseDC :=
  ApiResponseDC_init true (Given data) Omitted.

(** [api_error(message)]: [ApiResponseDC(success=False, error=message)]. *)
Definition api_error (message : string) : ApiResponseDC :=
  ApiResponseDC_init false Omitted (Given (Some message)).

(** ** The object store

    Instances and dictionaries are heap objects that Python code reaches by
    reference; [result["data"] = ...] updates the dictionary object in place.
    The store is a list of objects, an address is an index into it, and a new
    object goes to the end.  A payload is kept as a value: the envelope never
    looks inside it. *)
Inductive obj : Type :=
  | Instance (e : ApiResponseDC)
  | Dict (d : gmap string pyval).

Abbreviation addr := nat (only parsing).
Abbreviation heap := (list obj) (only parsing).

(** A computation over the store; [None] is a raised exception. *)
Definition py (A : Type) : Type := heap → option (A * heap).

#[export] Instance py_ret : MRet py := λ A (a : A) (h : heap), Some (a, h).
#[export] Instance py_bind : MBind py := λ A B (k : A → py B) (m : py A) (h : heap),
  match m h with
  | Some (a, h') => k a h'
  | None => None
  end.

(** A new object, at the first free address. *)
Definition alloc (o : obj) : py addr :=
  λ h, Some (List.length h, h ++ [o]).

(** Reading the attributes of the instance at [self]; raises when [self] is
    not an [ApiResponseDC]. *)
Definition getattrs (self : addr) : py ApiResponseDC :=
  λ h, match h !! self with
       | Some (Instance e) => Some (e, h)
       | _ => None
       end.

(** [d[k] = v] on the dictionary object at [d]. *)
Definition setitem (d : addr) (k : string) (v : pyval) : py unit :=
  λ h, match h !! d with
       | Some (Dict m) => Some (tt, <[ d := Dict (<[ k := v ]> m) ]> h)
       | _ => None
       end.

(** [ApiResponseDC(...)]: a new instance in the store. *)
Definition ApiResponseDC_call
    (success : bool) (data : arg pyval) (error : arg (option string)) : py addr :=
  alloc (Instance (ApiResponseDC_init success data error)).

(** [to_dict] statement by statement; every [self.x] reads the store again. *)
Definition to_dict_st (self : addr) : py addr :=
  e0 ← getattrs self;
  result ← alloc (Dict {[ "success" := PyBool (success e0) ]});
  e1 ← getattrs self;
  (if is_not_None (data e1)
   then e2 ← getattrs self; setitem result "data" (data e2)
   else mret tt);;
  e3 ← getattrs self;
  (if is_not_None (of_optional_str (error e3))
   then e4 ← getattrs self; setitem result "error" (of_optional_str (error e4))
   else mret tt);;
  mret result.

Definition api_ok_st (data : pyval) : py addr :=
  ApiResponseDC_call true (Given data) Omitted.

Definition api_error_st (message : string) : py addr :=
  ApiResponseDC_call false Omitted (Given (Some message)).

(** An assignment to a declared field, with a value of the declared type:
    [self.success = b], [self.data = v], [self.error = o]. *)
Inductive assignment : Type :=
  | AssignSuccess (b : bool)
  | AssignData (v : pyval)
  | AssignError (o : option string).

Definition assign (x : assignment) (e : ApiResponseDC) : ApiResponseDC :=
  match x with
  | AssignSuccess b => mkApiResponseDC b (data e) (error e)
  | AssignData v => mkApiResponseDC (success e) v (error e)
  | AssignError o => mkApiResponseDC (success e) (data e) o
  end.

(** [self.x = v] on the instance at [self].  The class is declared with
    [@dataclass], not [@dataclass(frozen=True)]: no [__setattr__] is
    generated that would raise, and the assignment stores the value in the
    instance, as on any plain object.  It raises when [self] is not an
    [ApiResponseDC]. *)
Definition setattr (self : addr) (x : assignment) : py unit :=
  λ h, match h !! self with
       | Some (Instance e) => Some (tt, <[ self := Instance (assign x e) ]> h)
       | _ => None
       end.

(** Every instance of the store [h] is still there, unchanged, in [h']. *)
Definition instances_kept (h h' : heap) : Prop :=
  ∀ (a : addr) (e : ApiResponseDC),
    h !! a = Some (Instance e) → h' !! a = Some (Instance e).

(** The envelope as an immutable value, its fields fixed when it is built:
    no assignment that goes through changes an instance of the store (on a
    frozen class every assignment raises). *)
Definition fields_fixed_at_construction : Prop :=
  ∀ (h h' : heap) (self : addr) (e : ApiResponseDC) (x : assignment),
    h !! self = Some (Instance e) →
    setattr self x h = Some (tt, h') →
    h' !! self = Some (Instance e).

(** ** Which constructor built an envelope *)

Definition built_by_ok (e : ApiResponseDC) : Prop := ∃ v : pyval, e = api_ok v.
Definition built_by_error (e : ApiResponseDC) : Prop := ∃ m : string, e = api_error m.

(** Key presence tied to the constructor that was used: [data] only for an
    envelope of [api_ok] with a payload that is not [None], [error] only for
    an envelope of [api_error]. *)
Definition keys_follow_constructor (e : ApiResponseDC) : Prop :=
  ("data" ∈ dom (to_dict e) ↔ built_by_ok e ∧ data e ≠ PyNone)
  ∧ ("error" ∈ dom (to_dict e) ↔ built_by_error e ∧ error e ≠ None).

(** ** Reading a mapping back *)

(** All three fields as a mapping, [None] included: what [asdict] of the
    class docstring returns for a payload without nested dataclasses. *)
Definition asdict (e : ApiResponseDC) : gmap string pyval :=
  <[ "error" := of_optional_str (error e) ]>
    (<[ "data" := data e ]> {[ "success" := PyBool (success e) ]}).

(** The compaction rule in the words of the specification: a key whose
    value is the absent sentinel is left out. *)
Definition compact (d : gmap string pyval) : gmap string pyval :=
  filter (λ kv : string * pyval, is_not_None kv.2 = true) d.

(** Modelled from the spec: [deserialize], the inverse of the serialization
    operation, is named by the round-trip property and defined nowhere in
    the source.  It rebuilds an envelope from the keys that are present: a
    key that is absent gives the absent sentinel, as the defaults of the
    constructor do; a mapping without a boolean [success], or with an
    [error] that is neither a string nor [None], is not an envelope. *)
Definition deserialize (d : gmap string pyval) : option ApiResponseDC :=
  match d !! "success" with
  | Some (PyBool b) =>
      let payload := default data_default (d !! "data") in
      match d !! "error" with
      | None | Some PyNone => Some (mkApiResponseDC b payload None)
      | Some (PyStr m) => Some (mkApiResponseDC b payload (Some m))
      | Some _ => None
      end
  | _ => None
  end.

(** ** The typed dictionary *)

(** [class ApiResponseDict(TypedDict, total=False)] declares [success: bool],
    [data: Any] and [error: str].  The type of the value a key may be bound
    to; a key that is not declared has none. *)
Definition ApiResponseDict_field (k : string) (v : pyval) : bool :=
  if bool_decide (k = "success") then
    match v with PyBool _ => true | _ => false end
  else if bool_decide (k = "data") then true
  else if bool_decide (k = "error") then
    match v with PyStr _ => true | _ => false end
  else false.

(** A mapping is an [ApiResponseDict] when every key it has is a declared
    one, bound to a value of the declared type; with [total=False] the type
    asks for no key to be there. *)
Definition ApiResponseDict (d : gmap string pyval) : Prop :=
  map_Forall (λ k v, ApiResponseDict_field k v = true) d.

(** * Properties *)

(** ** The scenarios of the specification *)

Example scenario_1 :
  to_dict (api_ok (PyDict [("id", PyStr "usr_1"); ("email", PyStr "dom@xomware.com")]))
  = <[ "data" := PyDict [("id", PyStr "usr_1"); ("email", PyStr "dom@xomware.com")] ]>
      {[ "success" := PyBool true ]}.
Proof. reflexivity. Qed.

Example scenario_2 :
  to_dict (api_error "Email is required")
  = <[ "error" := PyStr "Email is required" ]> {[ "success" := PyBool false ]}.
Proof. reflexivity. Qed.

Example scenario_3 : to_dict (api_ok PyNone) = {[ "success" := PyBool true ]}.
Proof. reflexivity. Qed.

Example scenario_4 :
  to_dict (api_error "") = <[ "error" := PyStr "" ]> {[ "success" := PyBool false ]}.
Proof. reflexivity. Qed.

(** ** Lookups in the serialized mapping *)

Section lookups.
Variable e : ApiResponseDC.

Lemma to_dict_success : to_dict e !! "success" = Some (PyBool (success e)).
Proof.
  unfold to_dict.
  destruct (is_not_None (data e)), (is_not_None (of_optional_str (error e)));
    by simplify_map_eq.
Qed.

Lemma to_dict_data :
  to_dict e !! "data" = if is_not_None (data e) then Some (data e) else None.
Proof.
  unfold to_dict.
  destruct (is_not_None (data e)), (is_not_None (of_optional_str (error e)));
    by simplify_map_eq.
Qed.

Lemma to_dict_error :
  to_dict e !! "error" = PyStr <$> error e.
Proof.
  unfold to_dict.
  destruct (error e) as [m|]; simpl;
    destruct (is_not_None (data e)); by simplify_map_eq.
Qed.

Lemma to_dict_other (k : string) :
  k ≠ "success" → k ≠ "data" → k ≠ "error" → to_dict e !! k = None.
Proof.
  intros Hs Hd He. unfold to_dict.
  destruct (is_not_None (data e)), (is_not_None (of_optional_str (error e)));
    by simplify_map_eq.
Qed.

End lookups.

Lemma is_not_None_true (v : pyval) : is_not_None v = true ↔ v ≠ PyNone.
Proof. destruct v; simpl; split; congruence. Qed.

Lemma is_not_None_false (v : pyval) : is_not_None v = false ↔ v = PyNone.
Proof. destruct v; simpl; split; congruence. Qed.

Lemma data_key_present (e : ApiResponseDC) :
  "data" ∈ dom (to_dict e) ↔ data e ≠ PyNone.
Proof.
  rewrite elem_of_dom, to_dict_data, <- is_not_None_true.
  destruct (is_not_None (data e)); split; intros H; try done;
    first [by eexists | by destruct H].
Qed.

Lemma error_key_present (e : ApiResponseDC) :
  "error" ∈ dom (to_dict e) ↔ error e ≠ None.
Proof.
  rewrite elem_of_dom, to_dict_error.
  destruct (error e) as [m|]; simpl; split; intros H; try done;
    first [by eexists | by destruct H].
Qed.

Lemma keys_of_to_dict (e : ApiResponseDC) (k : string) :
  k ∈ dom (to_dict e) → k = "success" ∨ k = "data" ∨ k = "error".
Proof.
  rewrite elem_of_dom. intros [x Hx].
  destruct (decide (k = "success")) as [|Hs]; [by left|].
  destruct (decide (k = "data")) as [|Hd]; [by right; left|].
  destruct (decide (k = "error")) as [|He]; [by right; right|].
  by rewrite to_dict_other in Hx.
Qed.

(** ** The factories, serialized *)

(** C1: for every payload [v], [api_ok(v).to_dict()] is exactly
    [{"success": True, "data": v}] when [v] is not [None] (empty containers,
    [0], [False] and the empty string included), and exactly
    [{"success": True}], with neither a [data] nor an [error] key, when [v]
    is [None]. *)
Theorem api_ok_to_dict (v : pyval) :
  to_dict (api_ok v)
  = match v with
    | PyNone => {[ "success" := PyBool true ]}
    | _ => <[ "data" := v ]> {[ "success" := PyBool true ]}
    end
  ∧ to_dict (api_ok v) !! "error" = None
  ∧ to_dict (api_ok PyNone) !! "data" = None.
Proof.
  split; [by destruct v|].
  split; [by rewrite to_dict_error|].
  by rewrite to_dict_data.
Qed.

Example api_ok_falsy_payloads :
  to_dict (api_ok (PyList [])) !! "data" = Some (PyList [])
  ∧ to_dict (api_ok (PyDict [])) !! "data" = Some (PyDict [])
  ∧ to_dict (api_ok (PyStr "")) !! "data" = Some (PyStr "")
  ∧ to_dict (api_ok (PyInt 0)) !! "data" = Some (PyInt 0)
  ∧ to_dict (api_ok (PyBool false)) !! "data" = Some (PyBool false).
Proof. by rewrite !to_dict_data. Qed.

(** C2: for every string [m], the empty one included,
    [api_error(m).to_dict()] is exactly [{"success": False, "error": m}];
    it has no [data] key, and for [m = ""] the [error] key is there, bound
    to the empty string. *)
Theorem api_error_to_dict (m : string) :
  to_dict (api_error m)
  = <[ "error" := PyStr m ]> {[ "success" := PyBool false ]}
  ∧ to_dict (api_error m) !! "data" = None
  ∧ to_dict (api_error "") !! "error" = Some (PyStr "").
Proof.
  split; [done|].
  split; [by rewrite to_dict_data | by rewrite to_dict_error].
Qed.

(** ** The keys of the serialized mapping *)

(** C3: whatever the three fields of an envelope are, the mapping of
    [to_dict] has the key [success], bound to the stored boolean; it has
    the key [data] exactly when the stored [data] is not [None], and the key
    [error] exactly when the stored [error] is not [None]; it has no other
    key. *)
Theorem to_dict_keys (e : ApiResponseDC) :
  to_dict e !! "success" = Some (PyBool (success e))
  ∧ ("data" ∈ dom (to_dict e) ↔ data e ≠ PyNone)
  ∧ ("error" ∈ dom (to_dict e) ↔ error e ≠ None)
  ∧ dom (to_dict e) ⊆ ({[ "success"; "data"; "error" ]} : gset string).
Proof.
  split; [apply to_dict_success|].
  split; [apply data_key_present|].
  split; [apply error_key_present|].
  intros k Hk. apply keys_of_to_dict in Hk.
  rewrite !elem_of_union, !elem_of_singleton. tauto.
Qed.

(** ** Key presence and the constructor that was used *)

(** An envelope built directly with [success=False] and a payload has the
    [data] key without having been built by [api_ok]. *)
Lemma keys_follow_constructor_fails :
  ¬ keys_follow_constructor (ApiResponseDC_init false (Given (PyInt 1)) Omitted).
Proof.
  intros [[Hdata _] _].
  assert (Hin : "data" ∈ dom (to_dict (ApiResponseDC_init false (Given (PyInt 1)) Omitted))).
  { apply data_key_present. discriminate. }
  apply Hdata in Hin as [[v Hv] _].
  discriminate Hv.
Qed.

(** C4, as amended: for every envelope the [data] key is present exactly
    when the stored [data] is not [None] and the [error] key exactly when
    the stored [error] is not [None], whichever way the envelope was built;
    an envelope of [api_error] never serializes a [data] key and one of
    [api_ok] never serializes an [error] key. *)
Theorem keys_follow_fields (e : ApiResponseDC) (v : pyval) (m : string) :
  ("data" ∈ dom (to_dict e) ↔ data e ≠ PyNone)
  ∧ ("error" ∈ dom (to_dict e) ↔ error e ≠ None)
  ∧ ("data" ∉ dom (to_dict (api_error m)))
  ∧ ("error" ∉ dom (to_dict (api_ok v))).
Proof.
  split; [apply data_key_present|].
  split; [apply error_key_present|].
  split.
  - rewrite data_key_present. intros H. by apply H.
  - rewrite error_key_present. intros H. by apply H.
Qed.

(** C10: serialization looks at the stored fields only.  A directly built
    envelope with [success=False] and a payload [d] that is not [None] has
    the [data] key, bound to [d]; one with [success=True] and an error
    string [m] has the [error] key, bound to [m]; and one mapping can hold
    [success], [data] and [error] together. *)
Theorem to_dict_ignores_constructor
    (d d' : pyval) (m : string) (err : arg (option string)) :
  d ≠ PyNone →
  to_dict (ApiResponseDC_init false (Given d) err) !! "data" = Some d
  ∧ to_dict (ApiResponseDC_init true (Given d') (Given (Some m))) !! "error"
    = Some (PyStr m)
  ∧ to_dict (ApiResponseDC_init true (Given d) (Given (Some m)))
    = <[ "error" := PyStr m ]> (<[ "data" := d ]> {[ "success" := PyBool true ]}).
Proof.
  intros Hd. apply is_not_None_true in Hd.
  split; [by rewrite to_dict_data; simpl; rewrite Hd|].
  split; [by rewrite to_dict_error|].
  unfold to_dict; simpl. by rewrite Hd.
Qed.

Lemma to_dict_ignores_constructor_witness :
  PyInt 1 ≠ PyNone
  ∧ to_dict (ApiResponseDC_init false (Given (PyInt 1)) Omitted) !! "data"
    = Some (PyInt 1).
Proof.
  assert (H : PyInt 1 ≠ PyNone) by discriminate.
  split; [exact H|].
  exact (proj1 (to_dict_ignores_constructor (PyInt 1) PyNone "boom" Omitted H)).
Defined.

(** ** Direct construction *)

(** C6: [ApiResponseDC(success, data, error)] accepts every combination of
    flag, payload and error, stores exactly the three values and checks
    nothing: a success flag with an error, both [data] and [error], or
    neither, all construct. *)
Theorem direct_construction_unchecked
    (s : bool) (d : pyval) (err : option string) (h : heap) :
  success (ApiResponseDC_init s (Given d) (Given err)) = s
  ∧ data (ApiResponseDC_init s (Given d) (Given err)) = d
  ∧ error (ApiResponseDC_init s (Given d) (Given err)) = err
  ∧ ApiResponseDC_call s (Given d) (Given err) h
    = Some (List.length h, h ++ [Instance (mkApiResponseDC s d err)]).
Proof. done. Qed.

Example inconsistent_envelopes :
  error (ApiResponseDC_init true Omitted (Given (Some "boom"))) = Some "boom"
  ∧ to_dict (ApiResponseDC_init true (Given (PyInt 1)) (Given (Some "boom")))
    = <[ "error" := PyStr "boom" ]> (<[ "data" := PyInt 1 ]> {[ "success" := PyBool true ]})
  ∧ to_dict (ApiResponseDC_init false Omitted Omitted) = {[ "success" := PyBool false ]}.
Proof. done. Qed.

(** ** The predicates of the pydantic form, unfolded *)

Lemma is_success_is_error (r : ApiResponse.t) :
  ApiResponse.is_success r = ApiResponse.success r
  ∧ ApiResponse.is_error r = negb (ApiResponse.success r).
Proof. unfold ApiResponse.is_success, ApiResponse.is_error. by destruct (ApiResponse.success r). Qed.

(** ** Round trip *)

Lemma deserialize_to_dict (e : ApiResponseDC) : deserialize (to_dict e) = Some e.
Proof.
  unfold deserialize.
  rewrite to_dict_success, to_dict_data, to_dict_error.
  destruct e as [s d [m|]]; simpl; by destruct d.
Qed.

Lemma to_dict_no_None (e : ApiResponseDC) (k : string) (x : pyval) :
  to_dict e !! k = Some x → is_not_None x = true.
Proof.
  intros Hk.
  assert (Hdom : k ∈ dom (to_dict e)) by (apply elem_of_dom; by eexists).
  apply keys_of_to_dict in Hdom as [-> | [-> | ->]].
  - rewrite to_dict_success in Hk. by inversion Hk.
  - rewrite to_dict_data in Hk.
    destruct (is_not_None (data e)) eqn:Hd; by inversion Hk; subst.
  - rewrite to_dict_error in Hk. destruct (error e); by inversion Hk.
Qed.

Lemma compact_idempotent (d : gmap string pyval) : compact (compact d) = compact d.
Proof.
  apply map_filter_id. intros k x Hk.
  by apply map_lookup_filter_Some in Hk as [_ Hx].
Qed.

(** [to_dict] is the full field mapping with the compaction rule applied. *)
Lemma to_dict_compact_asdict (e : ApiResponseDC) : to_dict e = compact (asdict e).
Proof.
  apply map_eq. intros k. apply option_eq. intros x.
  unfold compact. rewrite map_lookup_filter_Some. simpl. split.
  - intros Hk. split; [|by eapply to_dict_no_None].
    assert (Hdom : k ∈ dom (to_dict e)) by (apply elem_of_dom; by eexists).
    unfold asdict.
    apply keys_of_to_dict in Hdom as [-> | [-> | ->]].
    + rewrite to_dict_success in Hk. by simplify_map_eq.
    + rewrite to_dict_data in Hk.
      destruct (is_not_None (data e)); by simplify_map_eq.
    + rewrite to_dict_error in Hk. destruct (error e); by simplify_map_eq.
  - unfold asdict. intros [Hk Hx].
    destruct (decide (k = "error")) as [-> | He].
    { rewrite to_dict_error. simplify_map_eq. by destruct (error e). }
    destruct (decide (k = "data")) as [-> | Hd].
    { rewrite to_dict_data. simplify_map_eq. by rewrite Hx. }
    destruct (decide (k = "success")) as [-> | Hs].
    { rewrite to_dict_success. by simplify_map_eq. }
    by simplify_map_eq.
Qed.

(** C7: reading back the mapping of an envelope [e] gives [e] again, so the
    rebuilt envelope agrees with [e] on every key of the mapping, and
    serializing the rebuilt envelope gives the same mapping; the mapping is
    the full field mapping with the compaction rule applied, and applying
    the rule a second time changes nothing. *)
Theorem serialize_round_trip (e : ApiResponseDC) :
  deserialize (to_dict e) = Some e
  ∧ to_dict <$> deserialize (to_dict e) = Some (to_dict e)
  ∧ to_dict e = compact (asdict e)
  ∧ compact (to_dict e) = to_dict e.
Proof.
  split; [apply deserialize_to_dict|].
  split; [by rewrite deserialize_to_dict|].
  split; [apply to_dict_compact_asdict|].
  rewrite to_dict_compact_asdict. apply compact_idempotent.
Qed.

Example round_trip_keeps_falsy_payload :
  deserialize (to_dict (api_ok (PyInt 0))) = Some (api_ok (PyInt 0))
  ∧ deserialize (to_dict (api_error "")) = Some (api_error "")
  ∧ deserialize (to_dict (api_ok PyNone)) = Some (api_ok PyNone).
Proof. by rewrite !deserialize_to_dict. Qed.

(** ** Running the operations on the store *)

Lemma getattrs_app (h tl : heap) (self : addr) (e : ApiResponseDC) :
  h !! self = Some (Instance e) → getattrs self (h ++ tl) = Some (e, h ++ tl).
Proof.
  intros Hself. unfold getattrs.
  by rewrite (lookup_app_l_Some _ _ _ _ Hself).
Qed.

Lemma getattrs_here (h : heap) (self : addr) (e : ApiResponseDC) :
  h !! self = Some (Instance e) → getattrs self h = Some (e, h).
Proof. intros Hself. unfold getattrs. by rewrite Hself. Qed.

Lemma setitem_last (h : heap) (m : gmap string pyval) (k : string) (v : pyval) :
  setitem (List.length h) k v (h ++ [Dict m])
  = Some (tt, h ++ [Dict (<[ k := v ]> m)]).
Proof.
  unfold setitem.
  rewrite list_lookup_middle by done.
  rewrite insert_app_r_alt by done.
  by rewrite Nat.sub_diag.
Qed.

(** On an instance, the statements of [to_dict] run to the end: they leave
    the store as it was, with one more object, the dictionary that the
    function [to_dict] computes. *)
Lemma to_dict_st_run (h : heap) (self : addr) (e : ApiResponseDC) :
  h !! self = Some (Instance e) →
  to_dict_st self h = Some (List.length h, h ++ [Dict (to_dict e)]).
Proof.
  intros Hself.
  unfold to_dict_st, mbind, py_bind, mret, py_ret, alloc.
  rewrite (getattrs_here _ _ _ Hself).
  rewrite (getattrs_app _ _ _ _ Hself).
  unfold to_dict.
  destruct (is_not_None (data e)).
  - rewrite (getattrs_app _ _ _ _ Hself), setitem_last.
    rewrite (getattrs_app _ _ _ _ Hself).
    destruct (is_not_None (of_optional_str (error e))); [|done].
    by rewrite (getattrs_app _ _ _ _ Hself), setitem_last.
  - rewrite (getattrs_app _ _ _ _ Hself).
    destruct (is_not_None (of_optional_str (error e))); [|done].
    by rewrite (getattrs_app _ _ _ _ Hself), setitem_last.
Qed.

Lemma instances_kept_app (h tl : heap) : instances_kept h (h ++ tl).
Proof. intros a e Ha. by apply lookup_app_l_Some. Qed.

(** C5: no operation raises.  [api_ok] builds an envelope from any value,
    [None] included, and [api_error] from any string, the empty one
    included, in whatever store they are called; [to_dict] returns its
    mapping on every envelope, wherever in the store it is. *)
Theorem operations_total
    (h h1 h2 : heap) (v : pyval) (m : string) (e : ApiResponseDC) :
  (∃ a h', api_ok_st v h = Some (a, h') ∧ h' !! a = Some (Instance (api_ok v)))
  ∧ (∃ a h', api_error_st m h = Some (a, h')
             ∧ h' !! a = Some (Instance (api_error m)))
  ∧ (∃ r h', to_dict_st (List.length h1) (h1 ++ Instance e :: h2) = Some (r, h')
             ∧ h' !! r = Some (Dict (to_dict e))).
Proof.
  repeat split.
  - exists (List.length h), (h ++ [Instance (api_ok v)]).
    split; [done | by apply list_lookup_middle].
  - exists (List.length h), (h ++ [Instance (api_error m)]).
    split; [done | by apply list_lookup_middle].
  - eexists _, _. split.
    + apply to_dict_st_run. by apply list_lookup_middle.
    + by apply list_lookup_middle.
Qed.

Example to_dict_st_on_api_ok_None :
  to_dict_st 0 [Instance (api_ok PyNone)]
  = Some (1, [Instance (api_ok PyNone); Dict {[ "success" := PyBool true ]}]).
Proof. reflexivity. Qed.

Lemma setattr_middle (h1 h2 : heap) (e : ApiResponseDC) (x : assignment) :
  setattr (List.length h1) x (h1 ++ Instance e :: h2)
  = Some (tt, h1 ++ Instance (assign x e) :: h2).
Proof.
  unfold setattr.
  rewrite list_lookup_middle by done.
  rewrite insert_app_r_alt by done.
  by rewrite Nat.sub_diag.
Qed.

(** The class is not frozen: [e.data = 5] goes through and replaces the
    payload of an envelope built by [api_ok(None)]. *)
Lemma fields_fixed_at_construction_fails : ¬ fields_fixed_at_construction.
Proof.
  intros Hfixed.
  specialize (Hfixed [Instance (api_ok PyNone)]
                     [Instance (assign (AssignData (PyInt 5)) (api_ok PyNone))]
                     0 (api_ok PyNone) (AssignData (PyInt 5)) eq_refl eq_refl).
  discriminate Hfixed.
Qed.

(** C9, as amended: the fields of an envelope are set when it is built and
    no operation of the component changes them: after [api_ok], [api_error]
    and [to_dict] every instance of the store, the receiver of [to_dict]
    included, has the fields it had before.  The envelope is not immutable
    for all that: the class is not frozen, an assignment to a field by the
    caller replaces the stored value, and [to_dict] then serializes the new
    fields. *)
Theorem fields_change_only_by_assignment
    (h h1 h2 : heap) (v : pyval) (m : string) (e : ApiResponseDC) (x : assignment) :
  (∃ a h', api_ok_st v h = Some (a, h') ∧ instances_kept h h')
  ∧ (∃ a h', api_error_st m h = Some (a, h') ∧ instances_kept h h')
  ∧ (∃ r h', to_dict_st (List.length h1) (h1 ++ Instance e :: h2) = Some (r, h')
             ∧ instances_kept (h1 ++ Instance e :: h2) h'
             ∧ h' !! List.length h1 = Some (Instance e))
  ∧ (∃ r hA hB,
       setattr (List.length h1) x (h1 ++ Instance e :: h2) = Some (tt, hA)
       ∧ hA !! List.length h1 = Some (Instance (assign x e))
       ∧ to_dict_st (List.length h1) hA = Some (r, hB)
       ∧ hB !! r = Some (Dict (to_dict (assign x e)))).
Proof.
  assert (Hself : (h1 ++ Instance e :: h2) !! List.length h1 = Some (Instance e))
    by by apply list_lookup_middle.
  assert (Hnew : (h1 ++ Instance (assign x e) :: h2) !! List.length h1
                 = Some (Instance (assign x e)))
    by by apply list_lookup_middle.
  split; [|split; [|split]].
  - eexists _, _. split; [done | apply instances_kept_app].
  - eexists _, _. split; [done | apply instances_kept_app].
  - eexists _, _. split; [by apply to_dict_st_run|].
    split; [apply instances_kept_app | by apply lookup_app_l_Some].
  - eexists _, _, _. split; [apply setattr_middle|].
    split; [exact Hnew|].
    split; [by apply to_dict_st_run | by apply list_lookup_middle].
Qed.

Example to_dict_follows_assignment :
  (e ← api_ok_st PyNone; setattr e (AssignData (PyInt 5));; to_dict_st e) []
  = Some (1, [Instance (mkApiResponseDC true (PyInt 5) None);
              Dict (<[ "data" := PyInt 5 ]> {[ "success" := PyBool true ]})]).
Proof. reflexivity. Qed.

Example to_dict_st_writes_only_result :
  to_dict_st 1 [Dict ∅; Instance (mkApiResponseDC true (PyInt 7) (Some "e"))]
  = Some (2, [Dict ∅; Instance (mkApiResponseDC true (PyInt 7) (Some "e"));
              Dict (<[ "error" := PyStr "e" ]>
                      (<[ "data" := PyInt 7 ]> {[ "success" := PyBool true ]}))]).
Proof. reflexivity. Qed.

(** The store can tell a raised exception: [to_dict] on something that is
    not an envelope has no result. *)
Example to_dict_st_not_an_envelope : to_dict_st 0 [Dict ∅] = None.
Proof. reflexivity. Qed.

(** * Further properties of the code *)

(** ** The predicates of the pydantic form *)

(** X1: [is_success] and [is_error] are complementary on every envelope of
    the pydantic form, and they tell the two constructors apart: an envelope
    of [ok] is a success and not an error, one of [fail] is an error and not
    a success. *)
Theorem is_success_xor_is_error (r : ApiResponse.t) (v : pyval) (m : string) :
  ApiResponse.is_error r = negb (ApiResponse.is_success r)
  ∧ ApiResponse.is_success (ApiResponse.ok v) = true
  ∧ ApiResponse.is_error (ApiResponse.ok v) = false
  ∧ ApiResponse.is_success (ApiResponse.fail m) = false
  ∧ ApiResponse.is_error (ApiResponse.fail m) = true.
Proof.
  split; [|done].
  destruct (is_success_is_error r) as [-> ->]. done.
Qed.

(** ** What the serialized mapping keeps *)

(** X2: [to_dict] loses nothing: two envelopes with the same mapping have
    the same three fields. *)
Theorem to_dict_inj (e1 e2 : ApiResponseDC) :
  to_dict e1 = to_dict e2 → e1 = e2.
Proof.
  intros Heq.
  assert (Hs : success e1 = success e2).
  { pose proof (f_equal (λ d : gmap string pyval, d !! "success") Heq) as H.
    simpl in H. rewrite !to_dict_success in H. by inversion H. }
  assert (Hd : data e1 = data e2).
  { pose proof (f_equal (λ d : gmap string pyval, d !! "data") Heq) as H.
    simpl in H. rewrite !to_dict_data in H.
    destruct (is_not_None (data e1)) eqn:H1, (is_not_None (data e2)) eqn:H2;
      try discriminate H.
    - by inversion H.
    - apply is_not_None_false in H1, H2. by rewrite H1, H2. }
  assert (He : error e1 = error e2).
  { pose proof (f_equal (λ d : gmap string pyval, d !! "error") Heq) as H.
    simpl in H. rewrite !to_dict_error in H.
    destruct (error e1), (error e2); by inversion H. }
  destruct e1, e2; simpl in *. by subst.
Qed.

Lemma to_dict_inj_witness :
  to_dict (ApiResponseDC_init false (Given PyNone) (Given (Some "x")))
  = to_dict (api_error "x")
  ∧ ApiResponseDC_init false (Given PyNone) (Given (Some "x")) = api_error "x".
Proof.
  assert (H : to_dict (ApiResponseDC_init false (Given PyNone) (Given (Some "x")))
              = to_dict (api_error "x")) by reflexivity.
  split; [exact H|].
  exact (to_dict_inj _ _ H).
Defined.

(** X3: the mapping has one entry for [success], one more when the payload
    is not [None] and one more when there is an error: between one and
    three entries. *)
Theorem to_dict_size (e : ApiResponseDC) :
  size (to_dict e)
  = (1 + (if is_not_None (data e) then 1 else 0)
       + (match error e with Some _ => 1 | None => 0 end))%nat
  ∧ (1 ≤ size (to_dict e) ≤ 3)%nat.
Proof.
  assert (Hsize : size (to_dict e)
    = (1 + (if is_not_None (data e) then 1 else 0)
         + (match error e with Some _ => 1 | None => 0 end))%nat).
  { unfold to_dict.
    destruct (is_not_None (data e)), (error e) as [m|]; simpl;
      repeat (rewrite map_size_insert_None by by simplify_map_eq);
      by rewrite map_size_singleton. }
  split; [exact Hsize|].
  rewrite Hsize. destruct (is_not_None (data e)), (error e); lia.
Qed.

(** X4: the compaction is complete: no key of the mapping is bound to
    [None]. *)
Theorem to_dict_values_not_None (e : ApiResponseDC) (k : string) (x : pyval) :
  to_dict e !! k = Some x → x ≠ PyNone.
Proof.
  intros Hk. apply is_not_None_true. by eapply to_dict_no_None.
Qed.

Lemma to_dict_values_not_None_witness :
  to_dict (api_ok (PyInt 0)) !! "data" = Some (PyInt 0) ∧ PyInt 0 ≠ PyNone.
Proof.
  assert (H : to_dict (api_ok (PyInt 0)) !! "data" = Some (PyInt 0)) by reflexivity.
  split; [exact H|].
  exact (to_dict_values_not_None _ _ _ H).
Defined.

(** X5: a serialized success is never a serialized failure: whatever the
    payload and the message, the mappings of [api_ok] and of [api_error]
    differ, in the [success] flag and in the [error] key. *)
Theorem success_and_failure_differ (v : pyval) (m : string) :
  to_dict (api_ok v) ≠ to_dict (api_error m)
  ∧ to_dict (api_ok v) !! "success" ≠ to_dict (api_error m) !! "success"
  ∧ to_dict (api_ok v) !! "error" ≠ to_dict (api_error m) !! "error".
Proof.
  assert (Hflag : to_dict (api_ok v) !! "success" ≠ to_dict (api_error m) !! "success")
    by (rewrite !to_dict_success; discriminate).
  split; [|split; [exact Hflag|]].
  - intros Heq. apply Hflag. by rewrite Heq.
  - rewrite !to_dict_error. discriminate.
Qed.

(** ** The typed dictionary *)

(** X6: the mapping of every envelope is an [ApiResponseDict]: its keys are
    declared ones, [success] is bound to a boolean and [error], when it is
    there, to a string; and it has the [success] key, which the type with
    [total=False] does not ask for: the empty mapping is an
    [ApiResponseDict] that no envelope serializes to. *)
Theorem to_dict_is_ApiResponseDict (e : ApiResponseDC) :
  ApiResponseDict (to_dict e)
  ∧ ApiResponseDict ∅
  ∧ to_dict e ≠ ∅.
Proof.
  split; [|split].
  - intros k x Hk. simpl.
    assert (Hdom : k ∈ dom (to_dict e)) by (apply elem_of_dom; by eexists).
    apply keys_of_to_dict in Hdom as [-> | [-> | ->]].
    + rewrite to_dict_success in Hk. by inversion Hk.
    + done.
    + rewrite to_dict_error in Hk. destruct (error e); by inversion Hk.
  - apply map_Forall_empty.
  - intros Heq.
    pose proof (to_dict_success e) as Hs. rewrite Heq in Hs.
    by rewrite lookup_empty in Hs.
Qed.

(** ** The result dictionary is the caller's own *)

(** X7: every call of [to_dict] returns a new dictionary object.  A caller
    may write to the one it got ([result[k] = v]): the envelope keeps its
    fields, and a later [to_dict] of the same envelope returns another
    object, holding the mapping of the envelope without the caller's
    entry. *)
Theorem to_dict_st_fresh_result
    (h1 h2 : heap) (e : ApiResponseDC) (k : string) (v : pyval) :
  ∃ (r1 r2 : addr) (hA hB hC : heap),
    to_dict_st (List.length h1) (h1 ++ Instance e :: h2) = Some (r1, hA)
    ∧ setitem r1 k v hA = Some (tt, hB)
    ∧ to_dict_st (List.length h1) hB = Some (r2, hC)
    ∧ r1 ≠ r2
    ∧ (h1 ++ Instance e :: h2) !! r1 = None
    ∧ hC !! r1 = Some (Dict (<[ k := v ]> (to_dict e)))
    ∧ hC !! r2 = Some (Dict (to_dict e))
    ∧ hC !! List.length h1 = Some (Instance e).
Proof.
  set (h := h1 ++ Instance e :: h2).
  assert (Hself : h !! List.length h1 = Some (Instance e))
    by by apply list_lookup_middle.
  set (hB := h ++ [Dict (<[ k := v ]> (to_dict e))]).
  assert (HselfB : hB !! List.length h1 = Some (Instance e))
    by by apply lookup_app_l_Some.
  exists (List.length h), (List.length hB), (h ++ [Dict (to_dict e)]), hB,
    (hB ++ [Dict (to_dict e)]).
  split; [by apply to_dict_st_run|].
  split; [apply setitem_last|].
  split; [by apply to_dict_st_run|].
  split; [unfold hB; rewrite length_app; simpl; lia|].
  split; [by apply lookup_ge_None_2|].
  split; [apply lookup_app_l_Some; by apply list_lookup_middle|].
  split; [by apply list_lookup_middle | by apply lookup_app_l_Some].
Qed.

Example to_dict_st_twice :
  (r1 ← to_dict_st 0; setitem r1 "extra" (PyInt 1);; to_dict_st 0)
    [Instance (api_error "e")]
  = Some (2, [Instance (api_error "e");
              Dict (<[ "extra" := PyInt 1 ]> (to_dict (api_error "e")));
              Dict (to_dict (api_error "e"))]).
Proof. reflexivity. Qed.
